(** * Lost-and-Found (src/app.py): item store and QR-payload resolver

    A shallow embedding of the parts of [src/app.py] that manage the
    item table ([load_data], [create_sample_data], [save_data]), the
    report, browse and QR-scanner pages' table logic, and the payload
    written into and read back from QR codes.

    A Python [str] is a Rocq [string] whose characters are read as the
    code points U+0000 to U+00FF (Latin-1); the string methods below
    follow Python's Unicode definitions on that range.  Python floats are carried by their
    [repr] text, which is what [DataFrame.to_csv] writes and what
    [read_csv] parses back. *)

From Stdlib Require Import String Ascii List Bool Arith Lia.
Import ListNotations.
Open Scope string_scope.
Open Scope bool_scope.

(* ================================================================= *)
(** ** Python string methods *)

Module Py.

(** [s.startswith(p)] *)
Definition startswith (s p : string) : bool := String.prefix p s.

(** [str.isspace] on one character: tab, LF, VT, FF, CR, the
    separators U+001C-U+001F, space, NEL (U+0085) and no-break space
    (U+00A0). *)
Definition isspace (c : ascii) : bool :=
  let n := nat_of_ascii c in
  (((9 <=? n) && (n <=? 13)) || ((28 <=? n) && (n <=? 32)) ||
   (n =? 133) || (n =? 160))%nat.

(** [s.lstrip()] *)
Fixpoint lstrip (s : string) : string :=
  match s with
  | EmptyString => EmptyString
  | String c r => if isspace c then lstrip r else s
  end.

(** [s.rstrip()] *)
Fixpoint rstrip (s : string) : string :=
  match s with
  | EmptyString => EmptyString
  | String c r =>
      let r' := rstrip r in
      if String.eqb r' EmptyString && isspace c then EmptyString
      else String c r'
  end.

(** [s.strip()] *)
Definition strip (s : string) : string := rstrip (lstrip s).

(** [s.replace(old, new)] for a non-empty [old]: occurrences are found
    left to right and do not overlap.  [skip] counts the characters of
    the occurrence just replaced that remain to be passed over. *)
Fixpoint replace_from (old new : string) (skip : nat) (s : string) : string :=
  match s with
  | EmptyString => EmptyString
  | String c r =>
      match skip with
      | S k => replace_from old new k r
      | O =>
          if String.prefix old s
          then new ++ replace_from old new (String.length old - 1)%nat r
          else String c (replace_from old new 0 r)
      end
  end.

Definition replace (s old new : string) : string := replace_from old new 0 s.

(** [needle in hay] *)
Fixpoint contains (needle hay : string) : bool :=
  String.prefix needle hay ||
  match hay with
  | EmptyString => false
  | String _ r => contains needle r
  end.

(** [s.lower()]: A-Z and the Latin-1 capitals U+00C0-U+00D6 and
    U+00D8-U+00DE map to the letter 32 code points above. *)
Definition lower_char (c : ascii) : ascii :=
  let n := nat_of_ascii c in
  if (((65 <=? n) && (n <=? 90)) || ((192 <=? n) && (n <=? 222) && negb (n =? 215)))%nat
  then ascii_of_nat (n + 32)%nat else c.

Fixpoint lower (s : string) : string :=
  match s with
  | EmptyString => EmptyString
  | String c r => String (lower_char c) (lower r)
  end.

(** [os.path.join(a, b)] on POSIX for a relative [b]. *)
Definition path_join (a b : string) : string := a ++ "/" ++ b.

End Py.

(* ================================================================= *)
(** ** QR payload: [generate_qr_code] and the scanner's decoding step *)

Module Payload.

Definition PREFIX : string := "Item ID: ".

(** [qr.add_data(f"Item ID: {item_id}")] in [generate_qr_code] (and in
    [generate_qr_code_image]). *)
Definition encode_payload (item_id : string) : string := PREFIX ++ item_id.

Inductive decoded := Recognized (item_id : string) | NotRecognized.

(** [qr_code_scanner_page], lines 318-319:
    [if data.startswith("Item ID: "):
         item_id = data.replace("Item ID: ", "").strip()] *)
Definition decode_payload (data : string) : decoded :=
  if Py.startswith data PREFIX
  then Recognized (Py.strip (Py.replace data PREFIX ""))
  else NotRecognized.

(** The decoding step as the spec words it (section 4.2): strip the leading
    prefix once, then surrounding whitespace. *)
Definition decode_payload_spec (data : string) : decoded :=
  if Py.startswith data PREFIX
  then Recognized (Py.strip (String.substring (String.length PREFIX)
                               (String.length data) data))
  else NotRecognized.

(** The last character of a string. *)
Fixpoint last_char (s : string) : option ascii :=
  match s with
  | EmptyString => None
  | String c EmptyString => Some c
  | String _ r => last_char r
  end.

(** The ids the app issues, [str(uuid.uuid4())] (and the sample ids):
    36 characters, lower-case hexadecimal digits with hyphens at
    positions 8, 13, 18 and 23. *)
Definition is_hex (c : ascii) : bool :=
  let n := nat_of_ascii c in
  (((48 <=? n) && (n <=? 57)) || ((97 <=? n) && (n <=? 102)))%nat.

Fixpoint uuid_from (k : nat) (s : string) : bool :=
  match s with
  | EmptyString => (k =? 36)%nat
  | String c r =>
      (k <? 36)%nat &&
      (if ((k =? 8) || (k =? 13) || (k =? 18) || (k =? 23))%nat
       then (c =? "-")%char else is_hex c) &&
      uuid_from (S k) r
  end.

Definition uuid_text (s : string) : bool := uuid_from 0 s.

(** An id with no white space at either end. *)
Definition no_edge_space (s : string) : bool :=
  match s, last_char s with
  | String a _, Some b => negb (Py.isspace a) && negb (Py.isspace b)
  | _, _ => true
  end.

End Payload.

(* ================================================================= *)
(** ** The item table and its CSV file *)

Module Store.

(** One value of a DataFrame cell: a Python [str], a number (by its
    [repr] text) or a missing value ([NaN]). *)
Inductive cell := PStr (s : string) | PNum (repr : string) | PNaN.

(** The ten columns of [DATA_FILE], in the order the code writes them. *)
Record row (A : Type) := mkRow {
  id : A; type : A; title : A; description : A; category : A;
  image_path : A; latitude : A; longitude : A; reported_at : A;
  qr_code_path : A }.
Arguments mkRow {A}.
Arguments id {A}. Arguments type {A}. Arguments title {A}.
Arguments description {A}. Arguments category {A}.
Arguments image_path {A}. Arguments latitude {A}.
Arguments longitude {A}. Arguments reported_at {A}.
Arguments qr_code_path {A}.

Definition map_row {A B} (f : A -> B) (r : row A) : row B :=
  mkRow (f (id r)) (f (type r)) (f (title r)) (f (description r))
        (f (category r)) (f (image_path r)) (f (latitude r))
        (f (longitude r)) (f (reported_at r)) (f (qr_code_path r)).

Definition zip_row {A B C} (f : A -> B -> C) (a : row A) (b : row B) : row C :=
  mkRow (f (id a) (id b)) (f (type a) (type b)) (f (title a) (title b))
        (f (description a) (description b)) (f (category a) (category b))
        (f (image_path a) (image_path b)) (f (latitude a) (latitude b))
        (f (longitude a) (longitude b)) (f (reported_at a) (reported_at b))
        (f (qr_code_path a) (qr_code_path b)).

(** The columns of a table, each as the list of its fields. *)
Definition columns {A} (rs : list (row A)) : row (list A) :=
  mkRow (map id rs) (map type rs) (map title rs) (map description rs)
        (map category rs) (map image_path rs) (map latitude rs)
        (map longitude rs) (map reported_at rs) (map qr_code_path rs).

(** An in-memory record (a DataFrame row) and a line of the CSV file
    (its fields as text; the header line is the fixed column list). *)
Definition item := row cell.
Definition line := row string.

(** [DATA_FILE] on disk: [None] when the file does not exist. *)
Definition file := option (list line).

(** The strings [read_csv] reads as a missing value by default. *)
Definition na_tokens : list string :=
  [""; "#N/A"; "#N/A N/A"; "#NA"; "-1.#IND"; "-1.#QNAN"; "-NaN"; "-nan";
   "1.#IND"; "1.#QNAN"; "<NA>"; "N/A"; "NA"; "NULL"; "NaN"; "None";
   "n/a"; "nan"; "null"].

Definition is_na (f : string) : bool := existsb (String.eqb f) na_tokens.

Definition is_digit (c : ascii) : bool :=
  ((48 <=? nat_of_ascii c) && (nat_of_ascii c <=? 57))%nat.

(** Leading digits of a string: how many, and what follows them. *)
Fixpoint span_digits (s : string) : nat * string :=
  match s with
  | String c r => if is_digit c then let (n, t) := span_digits r in (S n, t)
                  else (0%nat, s)
  | EmptyString => (0%nat, s)
  end.

Definition drop_sign (s : string) : string :=
  match s with
  | String c r => if (c =? "+")%char || (c =? "-")%char then r else s
  | EmptyString => s
  end.

(** Decimal numbers as [read_csv] infers them: a sign, digits with at
    most one point, and an optional exponent. *)
Definition numeric_text (s : string) : bool :=
  let (n1, r1) := span_digits (drop_sign s) in
  let (n2, r2) :=
    match r1 with
    | String c r => if (c =? ".")%char then span_digits r else (0%nat, r1)
    | EmptyString => (0%nat, r1)
    end in
  (0 <? n1 + n2)%nat &&
  match r2 with
  | EmptyString => true
  | String c r =>
      ((c =? "e")%char || (c =? "E")%char) &&
      (let (n3, r3) := span_digits (drop_sign r) in
       (0 <? n3)%nat && String.eqb r3 EmptyString)
  end.

(** [df.to_csv(DATA_FILE, index=False)]: a missing value is written as
    an empty field. *)
Definition write_cell (c : cell) : string :=
  match c with PStr s => s | PNum r => r | PNaN => "" end.

Definition to_csv (df : list item) : list line := map (map_row write_cell) df.

(** [pd.read_csv(DATA_FILE)]: a column whose fields are all numbers or
    missing is read as numbers; any other column as strings; a field
    holding an NA token is missing in either.  Pandas also reads a
    column holding only [True]/[False] tokens as booleans; that case is
    left out, as every table the app writes starts with the sample
    records, none of whose fields is such a token. *)
Definition col_numeric (fields : list string) : bool :=
  forallb (fun f => is_na f || numeric_text f) fields.

Definition read_cell (numeric : bool) (f : string) : cell :=
  if is_na f then PNaN else if numeric then PNum f else PStr f.

Definition read_csv (rows : list line) : list item :=
  let kinds := map_row col_numeric (columns rows) in
  map (zip_row read_cell kinds) rows.

(** Errors the code raises on the paths modelled here: a missing value
    has no [lower] ([AttributeError]); [os.path.exists] of a missing
    value ([TypeError]); an upload that [Image.open] cannot decode or
    [image.save] cannot write as PNG ([ImageError]: PIL's
    [UnidentifiedImageError] or [OSError]). *)
Inductive exn := AttributeError | TypeError | ImageError.

Inductive result (A : Type) := Ok (a : A) | Err (e : exn).
Arguments Ok {A}. Arguments Err {A}.

Definition bind {A B} (m : result A) (k : A -> result B) : result B :=
  match m with Ok a => k a | Err e => Err e end.

Notation "x <- m ;; k" := (bind m (fun x => k))
  (at level 61, m at next level, right associativity).
Notation "' p <- m ;; k" := (bind m (fun x => match x with p => k end))
  (at level 61, p pattern, m at next level, right associativity).

(** The installed Pillow: whether [ImageDraw.textsize] exists (it was
    removed in Pillow 10). *)
Record pillow := { has_textsize : bool }.

(** Pillow before and from version 10. *)
Definition pillow9 : pillow := {| has_textsize := true |}.
Definition pillow10 : pillow := {| has_textsize := false |}.

(** [create_placeholder_image]: the first block measures the text with
    [textbbox], falling back to [textsize] under [try/except]; the
    second block calls [d.textsize] unguarded. *)
Definition create_placeholder_image (pil : pillow) (text path : string)
  : result unit :=
  if has_textsize pil then Ok tt else Err AttributeError.

Definition IMAGES_DIR := "images".
Definition QR_DIR := "images/qr_codes".

(** The rows built by [create_sample_data]. *)
Definition sample_row (i ty t d c la lo ts : string) : item :=
  mkRow (PStr i) (PStr ty) (PStr t) (PStr d) (PStr c)
        (PStr (Py.path_join IMAGES_DIR (i ++ ".png"))) (PNum la) (PNum lo)
        (PStr ts) (PStr (Py.path_join QR_DIR (i ++ ".png"))).

Definition sample_items : list item :=
  [ sample_row "11111111-aaaa-bbbb-cccc-111111111111" "lost" "Blue Backpack"
      "Lost a blue backpack near the library" "Bags" "12.9716" "77.5946"
      "2025-08-10 10:00:00";
    sample_row "22222222-bbbb-cccc-dddd-222222222222" "found"
      "Silver Wristwatch" "Found a silver wristwatch in the cafeteria"
      "Accessories" "12.972" "77.595" "2025-08-09 14:30:00";
    sample_row "33333333-cccc-dddd-eeee-333333333333" "lost" "Black Jacket"
      "Black jacket lost in auditorium" "Clothing" "12.9705" "77.593"
      "2025-08-08 18:20:00" ].

(** The loop of [create_sample_data]: a placeholder image and a QR image
    per sample item (only the former can fail). *)
Fixpoint create_assets (pil : pillow) (items : list item) : result unit :=
  match items with
  | [] => Ok tt
  | it :: rest =>
      _ <- create_placeholder_image pil (write_cell (title it))
             (write_cell (image_path it)) ;;
      create_assets pil rest
  end.

(** [create_sample_data]: an existing file with at least one record is
    kept; otherwise the sample table is written over it. *)
Definition create_sample_data (pil : pillow) (st : file) : result file :=
  match st with
  | Some (_ :: _) => Ok st
  | _ => _ <- create_assets pil sample_items ;; Ok (Some (to_csv sample_items))
  end.

(** [load_data]: returns the file afterwards and the DataFrame read. *)
Definition load_data (pil : pillow) (st : file) : result (file * list item) :=
  st' <- create_sample_data pil st ;;
  match st' with
  | Some rows => Ok (st', read_csv rows)
  | None => Ok (st', [])
  end.

(** [save_data] *)
Definition save_data (df : list item) : file := Some (to_csv df).

End Store.

(* ================================================================= *)
(** ** The pages' table logic *)

Module Pages.
Import Store.

(** The fields of [report_form]: the float inputs by their [repr];
    whether a file was uploaded, and whether PIL opens it and saves it
    as PNG. *)
Record form := {
  form_type : string; form_title : string; form_description : string;
  form_category : string; form_latitude : string; form_longitude : string;
  form_has_image : bool; form_image_ok : bool }.

(** [new_item] of [report_item_page]; [item_id] is [str(uuid.uuid4())]
    and [now] the [strftime] of [datetime.now()]. *)
Definition new_item (f : form) (item_id now : string) : item :=
  mkRow (PStr item_id) (PStr (form_type f)) (PStr (form_title f))
        (PStr (form_description f)) (PStr (form_category f))
        (PStr (if form_has_image f
               then Py.path_join IMAGES_DIR (item_id ++ ".png") else ""))
        (PNum (form_latitude f)) (PNum (form_longitude f)) (PStr now)
        (PStr (Py.path_join QR_DIR (item_id ++ ".png"))).

(** [Image.open(image_file)] and [image.save(image_path)] when a file
    was uploaded. *)
Definition open_image (f : form) : result unit :=
  if form_has_image f && negb (form_image_ok f) then Err ImageError
  else Ok tt.

(** A submission of [report_item_page]: [df = load_data()] when the page
    is drawn; on submit the upload is opened and saved, the QR image is
    written, then [pd.concat] of the new row and [save_data].  The saved
    image and QR files do not touch the table. *)
Definition report_submit (pil : pillow) (st : file) (f : form)
    (item_id now : string) : result file :=
  '(_, df) <- load_data pil st ;;
  _ <- open_image f ;;
  Ok (save_data (df ++ [new_item f item_id now])).

(** [df["id"] == item_id] (and [df["type"] == filter_type]) on one cell:
    only a string cell can equal a string. *)
Definition cell_eq_str (c : cell) (s : string) : bool :=
  match c with PStr t => String.eqb t s | _ => false end.

(** The lookup of [qr_code_scanner_page]: [df = load_data()],
    [item = df[df["id"] == item_id]], then [item.iloc[0]] unless empty. *)
Definition find_by_id (pil : pillow) (st : file) (item_id : string)
  : result (file * option item) :=
  '(st', df) <- load_data pil st ;;
  Ok (st', find (fun r => cell_eq_str (id r) item_id) df).

(** [row["title"].lower()]: a missing value is a float, which has no
    [lower]. *)
Definition cell_lower (c : cell) : result string :=
  match c with PStr s => Ok (Py.lower s) | _ => Err AttributeError end.

(** The lambda of [browse_items_page], with Python's short-circuit [or]. *)
Definition row_matches (search_term : string) (r : item) : result bool :=
  t <- cell_lower (title r) ;;
  if Py.contains (Py.lower search_term) t then Ok true
  else d <- cell_lower (description r) ;;
       Ok (Py.contains (Py.lower search_term) d).

(** [df[df.apply(..., axis=1)]]: the rows are visited in order and the
    first exception propagates. *)
Fixpoint filter_rows (p : item -> result bool) (df : list item)
  : result (list item) :=
  match df with
  | [] => Ok []
  | r :: rest =>
      b <- p r ;;
      rest' <- filter_rows p rest ;;
      Ok (if b then r :: rest' else rest')
  end.

(** The two filters of [browse_items_page]. *)
Definition filter_items (df : list item) (filter_type search_term : string)
  : result (list item) :=
  let df1 := if String.eqb filter_type "All" then df
             else filter (fun r => cell_eq_str (type r) filter_type) df in
  if String.eqb search_term "" then Ok df1
  else filter_rows (row_matches search_term) df1.

(** [browse_items_page] up to the list of selectable items. *)
Definition browse_items (pil : pillow) (st : file)
    (filter_type search_term : string) : result (list item) :=
  '(_, df) <- load_data pil st ;;
  match df with
  | [] => Ok []
  | _ => filter_items df filter_type search_term
  end.

(** A submission's coordinates are Python floats: their [repr] is a
    decimal number. *)
Definition form_ok (f : form) : bool :=
  numeric_text (form_latitude f) && numeric_text (form_longitude f).


(** The table files the app itself produces: from no file (or a freshly
    created empty one), by loading and by report submissions. *)
Inductive reachable (pil : pillow) : file -> Prop :=
| reach_none : reachable pil None
| reach_empty : reachable pil (Some [])
| reach_load st st' df :
    reachable pil st -> load_data pil st = Ok (st', df) -> reachable pil st'
| reach_report st f item_id now st' :
    reachable pil st -> form_ok f = true ->
    report_submit pil st f item_id now = Ok st' -> reachable pil st'.

(** The column types [read_csv] infers on such a table: the coordinates
    are numbers, every other column text. *)
Definition store_kinds : row bool :=
  mkRow false false false false false false true true false false.

(** A record as it is read back from the table once written. *)
Definition read_back (r : item) : item :=
  zip_row read_cell store_kinds (map_row write_cell r).


(** The sample table as written, and one line as read back. *)
Definition S0 : list line := to_csv sample_items.
Definition read_line : line -> item := zip_row read_cell store_kinds.

(** A line whose coordinate fields are numbers or missing. *)
Definition line_ok (l : line) : bool :=
  (is_na (latitude l) || numeric_text (latitude l)) &&
  (is_na (longitude l) || numeric_text (longitude l)).

(** The shape of the table files the app produces: none, an empty one,
    or the sample lines followed by lines with numeric coordinates. *)
Definition table_shape (st : file) : Prop :=
  st = None \/ st = Some [] \/
  exists rest, st = Some (to_csv sample_items ++ rest)%list /\
               Forall (fun l => line_ok l = true) rest.

(** The fields of a record, in column order. *)
Definition row_fields {A} (r : row A) : list A :=
  [id r; type r; title r; description r; category r; image_path r;
   latitude r; longitude r; reported_at r; qr_code_path r].

(** No field of the record is missing or an NA token. *)
Definition no_na_field (r : item) : bool :=
  forallb (fun c => match c with
                    | PStr s | PNum s => negb (is_na s)
                    | PNaN => false
                    end) (row_fields r).

End Pages.

(** Concrete inputs. *)
Module Inputs.
Import Store Pages.

Definition ts0 : string := "2026-01-01 00:00:00".

(** A lost umbrella reported with the form's defaults: empty description,
    no photo, coordinates 0.0. *)
Definition umbrella_form : form :=
  {| form_type := "lost"; form_title := "Red Umbrella";
     form_description := ""; form_category := "Other";
     form_latitude := "0.0"; form_longitude := "0.0";
     form_has_image := false; form_image_ok := false |}.

(** A report with every field filled and a photo. *)
Definition phone_form : form :=
  {| form_type := "found"; form_title := "Grey Phone";
     form_description := "Found near gate 2"; form_category := "Electronics";
     form_latitude := "12.97"; form_longitude := "77.59";
     form_has_image := true; form_image_ok := true |}.

(** A report with an empty title. *)
Definition untitled_form : form :=
  {| form_type := "lost"; form_title := ""; form_description := "keys";
     form_category := "Other"; form_latitude := "0.0";
     form_longitude := "0.0"; form_has_image := false;
     form_image_ok := false |}.

Definition uuid1 : string := "9f1c2d3e-4a5b-6c7d-8e9f-0a1b2c3d4e5f".

(** The table after the umbrella report on the seeded store. *)
Definition umbrella_table : file :=
  save_data (sample_items ++ [new_item umbrella_form uuid1 ts0])%list.

End Inputs.

(* ================================================================= *)
(** ** The map, the browse page's selection and the scanner loop *)

Module Views.
Import Store Pages.

(** A cell that [dropna] keeps. *)
Definition present (c : cell) : bool :=
  match c with PNaN => false | _ => true end.

(** [df[["latitude", "longitude", "title"]].dropna()] of [map_view_page]. *)
Definition map_points (df : list item) : list (cell * cell * cell) :=
  map (fun r => (latitude r, longitude r, title r))
      (filter (fun r => present (latitude r) && present (longitude r)
                        && present (title r)) df).

(** [map_view_page] up to the points handed to the map. *)
Definition map_view (pil : pillow) (st : file)
  : result (list (cell * cell * cell)) :=
  '(_, df) <- load_data pil st ;;
  match df with
  | [] => Ok []
  | _ => Ok (map_points df)
  end.

(** Pandas [==] between two cells: a missing value equals nothing. *)
Definition cell_eq (a b : cell) : bool :=
  match a, b with
  | PStr x, PStr y => String.eqb x y
  | PNum x, PNum y => String.eqb x y
  | _, _ => false
  end.

Definition SELECT : string := "-- Select --".

(** The options of the "Select an item" box:
    [["-- Select --"] + df["title"].tolist()]. *)
Definition title_options (df : list item) : list cell :=
  PStr SELECT :: map title df.

Inductive selection := NothingSelected | Shown (r : item) | SelectIndexError.

(** The detail view of [browse_items_page] for the chosen option [sel]:
    [if selected_title != "-- Select --":
         selected_item = df[df["title"] == selected_title].iloc[0]]
    ([iloc[0]] on no row raises [IndexError]). *)
Definition select_item (df : list item) (sel : cell) : selection :=
  if cell_eq sel (PStr SELECT) then NothingSelected
  else match find (fun r => cell_eq (title r) sel) df with
       | Some r => Shown r
       | None => SelectIndexError
       end.

(** [os.path.exists(p)] as far as the pages need it: a string path is
    answered (the answer only chooses what is drawn); a float, such as
    a missing value, raises [TypeError]. *)
Definition path_exists (c : cell) : result unit :=
  match c with PStr _ => Ok tt | _ => Err TypeError end.

(** The rest of the detail view once a record is chosen:
    [os.path.exists(selected_item["image_path"])],
    [selected_item['type'].capitalize()] (a missing value has no
    [capitalize]) and [os.path.exists(selected_item["qr_code_path"])]. *)
Definition detail_view (df : list item) (sel : cell) : result selection :=
  match select_item df sel with
  | Shown r =>
      _ <- path_exists (image_path r) ;;
      _ <- match type r with PStr _ => Ok tt | _ => Err AttributeError end ;;
      _ <- path_exists (qr_code_path r) ;;
      Ok (Shown r)
  | o => Ok o
  end.

(** What [qr_code_scanner_page] shows for one decoded payload. *)
Inductive scan_outcome :=
| Unrecognized (data : string)
| NoItem (item_id : string)
| ShowItem (item_id : string) (r : item).

Inductive scan_result := NoCodeDetected | Scanned (outs : list scan_outcome).

(** The [for obj in decoded_objects] loop: a recognised payload loads
    the table and looks its id up, then shows the record found, starting with
    [os.path.exists(item["image_path"])]; an unrecognised one touches
    nothing. *)
Fixpoint scan_all (pil : pillow) (st : file) (datas : list string)
  : result (file * list scan_outcome) :=
  match datas with
  | [] => Ok (st, [])
  | d :: ds =>
      match Payload.decode_payload d with
      | Payload.NotRecognized =>
          '(st', outs) <- scan_all pil st ds ;;
          Ok (st', Unrecognized d :: outs)
      | Payload.Recognized u =>
          '(st1, o) <- find_by_id pil st u ;;
          _ <- match o with
               | Some r => path_exists (image_path r)
               | None => Ok tt
               end ;;
          '(st2, outs) <- scan_all pil st1 ds ;;
          Ok (st2, match o with
                   | Some r => ShowItem u r
                   | None => NoItem u
                   end :: outs)
      end
  end.

(** [qr_code_scanner_page] after [pyzbar.decode]: [decoded] holds the
    payloads of the codes found, as [obj.data.decode("utf-8")]. *)
Definition qr_code_scanner (pil : pillow) (st : file) (decoded : list string)
  : result (file * scan_result) :=
  match decoded with
  | [] => Ok (st, NoCodeDetected)
  | _ => '(st', outs) <- scan_all pil st decoded ;; Ok (st', Scanned outs)
  end.

(** A record whose QR path and image path are the ones keyed by its id:
    [os.path.join(QR_DIR, f"{item_id}.png")] and either no image or
    [os.path.join(IMAGES_DIR, f"{item_id}.png")]. *)
Definition paths_ok (r : item) : Prop :=
  exists u, id r = read_cell false u /\
    qr_code_path r = PStr (Py.path_join QR_DIR (u ++ ".png")) /\
    (image_path r = PNaN \/
     image_path r = PStr (Py.path_join IMAGES_DIR (u ++ ".png"))).

End Views.


(* ================================================================= *)
(** * Properties *)

Module PayloadFacts.
Import Payload.

Lemma prefix_refl_app (p s : string) : String.prefix p (p ++ s) = true.
Proof.
  induction p as [|c p IH]; [destruct s; reflexivity|].
  simpl. destruct (ascii_dec c c); [exact IH | congruence].
Qed.

Lemma replace_from_skip (old new t s : string) :
  Py.replace_from old new (String.length t) (t ++ s)
  = Py.replace_from old new 0 s.
Proof. induction t as [|c t IH]; simpl; [reflexivity | exact IH]. Qed.

Lemma replace_from_absent (old new s : string) :
  Py.contains old s = false -> Py.replace_from old new 0 s = s.
Proof.
  induction s as [|c s IH]; simpl; [reflexivity|].
  intros H. apply orb_false_iff in H as [Hp Hc].
  rewrite Hp, IH by exact Hc. reflexivity.
Qed.

Lemma replace_prefix (old new s : string) :
  old <> EmptyString ->
  Py.replace_from old new 0 (old ++ s) = new ++ Py.replace_from old new 0 s.
Proof.
  intros Hne. destruct old as [|c t]; [congruence|].
  assert (Hp := prefix_refl_app (String c t) s). simpl in Hp |- *.
  rewrite Hp. try rewrite Nat.sub_0_r. rewrite replace_from_skip.
  reflexivity.
Qed.

Lemma rstrip_keep (s : string) :
  match last_char s with Some b => Py.isspace b = false | None => True end ->
  Py.rstrip s = s.
Proof.
  induction s as [|c r IH]; simpl; [reflexivity|].
  destruct r as [|c' r'].
  - intros H. simpl. rewrite H. reflexivity.
  - intros H. rewrite IH by exact H. reflexivity.
Qed.

Lemma last_char_some (a : ascii) (r : string) : last_char (String a r) <> None.
Proof.
  revert a. induction r as [|c r IH]; intros a; simpl; [discriminate|].
  apply IH.
Qed.

Lemma strip_keep (s : string) : no_edge_space s = true -> Py.strip s = s.
Proof.
  unfold no_edge_space, Py.strip. destruct s as [|a r]; [reflexivity|].
  destruct (last_char (String a r)) as [b|] eqn:Hl;
    [|exfalso; exact (last_char_some a r Hl)].
  intros H. apply andb_true_iff in H as [Ha Hb].
  apply negb_true_iff in Ha. apply negb_true_iff in Hb.
  change (Py.lstrip (String a r))
    with (if Py.isspace a then Py.lstrip r else String a r).
  rewrite Ha. apply rstrip_keep. rewrite Hl. exact Hb.
Qed.

(** The scanner recognises exactly the payloads that start with the
    prefix. *)
Lemma decode_recognized_iff (data : string) :
  decode_payload data <> NotRecognized <-> Py.startswith data PREFIX = true.
Proof.
  unfold decode_payload. destruct (Py.startswith data PREFIX).
  - split; [reflexivity | discriminate].
  - split; [intros H; congruence | discriminate].
Qed.

Lemma prefix_head_neq (a c : ascii) (t r : string) :
  a <> c -> String.prefix (String a t) (String c r) = false.
Proof. intros H. simpl. destruct (ascii_dec a c); [contradiction | reflexivity]. Qed.

Lemma uuid_char_not_I (b : bool) (c : ascii) :
  (if b then (c =? "-")%char else is_hex c) = true -> "I"%char <> c.
Proof. destruct b; intros H <-; discriminate H. Qed.

Lemma uuid_char_not_space (b : bool) (c : ascii) :
  (if b then (c =? "-")%char else is_hex c) = true -> Py.isspace c = false.
Proof.
  destruct b; destruct c as [[] [] [] [] [] [] [] []]; vm_compute;
    intros H; first [reflexivity | discriminate H].
Qed.

Lemma uuid_no_prefix (k : nat) (s : string) :
  uuid_from k s = true -> Py.contains PREFIX s = false.
Proof.
  revert k. induction s as [|c r IH]; intros k H; [reflexivity|].
  simpl in H. apply andb_true_iff in H as [H Hr].
  apply andb_true_iff in H as [_ Hc].
  cbn [Py.contains]. unfold PREFIX.
  rewrite prefix_head_neq by exact (uuid_char_not_I _ _ Hc).
  exact (IH (S k) Hr).
Qed.

Lemma uuid_last (k : nat) (s : string) :
  uuid_from k s = true ->
  match last_char s with Some b => Py.isspace b = false | None => True end.
Proof.
  revert k. induction s as [|c r IH]; intros k H; [exact I|].
  simpl in H. apply andb_true_iff in H as [H Hr].
  apply andb_true_iff in H as [_ Hc].
  destruct r as [|c' r'].
  - exact (uuid_char_not_space _ _ Hc).
  - exact (IH (S k) Hr).
Qed.

Lemma uuid_no_edge_space (s : string) : uuid_text s = true -> no_edge_space s = true.
Proof.
  unfold uuid_text, no_edge_space. intros H. pose proof (uuid_last 0 s H) as Hl.
  destruct s as [|c r]; [reflexivity|].
  destruct (last_char (String c r)) as [b|]; [|reflexivity].
  simpl in H. apply andb_true_iff in H as [Hc _].
  rewrite (uuid_char_not_space false c Hc), Hl. reflexivity.
Qed.

(** C1: for every id the app issues ([str(uuid.uuid4())], and the
    sample ids, which have the same shape), decoding the payload written
    for the id gives the id back. *)
Theorem decode_encode_roundtrip (item_id : string)
    (Hid : uuid_text item_id = true) :
  decode_payload (encode_payload item_id) = Recognized item_id.
Proof.
  pose proof (uuid_no_edge_space item_id Hid) as Hsp.
  pose proof (uuid_no_prefix 0 item_id Hid) as Hocc.
  unfold decode_payload, encode_payload, Py.startswith, Py.replace.
  rewrite prefix_refl_app, replace_prefix by discriminate.
  simpl. rewrite replace_from_absent by exact Hocc.
  rewrite strip_keep by exact Hsp. reflexivity.
Qed.

Lemma decode_encode_roundtrip_witness :
  uuid_text "11111111-aaaa-bbbb-cccc-111111111111" = true /\
  decode_payload (encode_payload "11111111-aaaa-bbbb-cccc-111111111111")
  = Recognized "11111111-aaaa-bbbb-cccc-111111111111".
Proof.
  split; [reflexivity|].
  apply decode_encode_roundtrip; reflexivity.
Defined.

(** C4 (code bug): on "Item ID: aItem ID: b" the scanner removes every
    occurrence of the prefix and yields "ab", where stripping the
    leading prefix alone yields "aItem ID: b". *)
Theorem decode_replaces_every_prefix :
  decode_payload "Item ID: aItem ID: b" = Recognized "ab" /\
  decode_payload_spec "Item ID: aItem ID: b" = Recognized "aItem ID: b".
Proof. split; reflexivity. Qed.

End PayloadFacts.

Module StoreFacts.
Import Store Pages.

(** C2 (amended): with no table file (or a table file holding no
    record), [load_data] does not return an empty table: it writes the
    three sample records and returns them. *)
Theorem load_missing_seeds_samples (pil : pillow)
    (Hpil : has_textsize pil = true) (st : file)
    (Hst : st = None \/ st = Some []) :
  load_data pil st = Ok (Some (to_csv sample_items), sample_items).
Proof.
  destruct pil as [b]; simpl in Hpil; subst b.
  destruct Hst as [-> | ->]; vm_compute; reflexivity.
Qed.

Lemma load_missing_seeds_samples_witness :
  has_textsize pillow9 = true /\ (@None (list line) = None \/ @None (list line) = Some []) /\
  load_data pillow9 None = Ok (Some (to_csv sample_items), sample_items).
Proof.
  split; [reflexivity|]. split; [left; reflexivity|].
  apply load_missing_seeds_samples; [reflexivity | left; reflexivity].
Defined.

(** C2 counterexample: with no table file, [load_data] returns the
    three sample records, not an empty table. *)
Lemma load_missing_not_empty :
  ~ (exists st', load_data pillow9 None = Ok (st', [])).
Proof. intros [st' H]. vm_compute in H. discriminate H. Qed.

(** C10 (code bug): under Pillow 10 the unguarded [d.textsize] call of
    [create_placeholder_image] raises before the sample table is
    written, so [load_data] fails on a missing or empty table; with an
    older Pillow it writes and returns the three sample records. *)
Theorem load_missing_fails_pillow10 :
  load_data pillow10 None = Err AttributeError /\
  load_data pillow10 (Some []) = Err AttributeError /\
  load_data pillow9 None = Ok (Some (to_csv sample_items), sample_items).
Proof. split; [|split]; vm_compute; reflexivity. Qed.

Lemma cell_eq_str_true (c : cell) (s : string) :
  cell_eq_str c s = true <-> c = PStr s.
Proof.
  destruct c; simpl; split; try discriminate.
  - intros H. apply String.eqb_eq in H. subst. reflexivity.
  - intros H. inversion H. apply String.eqb_refl.
Qed.

Lemma cell_eq_str_false (c : cell) (s : string) :
  cell_eq_str c s = false <-> c <> PStr s.
Proof.
  rewrite <- cell_eq_str_true. destruct (cell_eq_str c s); split; congruence.
Qed.

Lemma find_first {A} (p : A -> bool) (l : list A) :
  match find p l with
  | Some r => exists pre post, l = (pre ++ r :: post)%list /\ p r = true /\
                Forall (fun q => p q = false) pre
  | None => Forall (fun q => p q = false) l
  end.
Proof.
  induction l as [|a l IH]; simpl; [constructor|].
  destruct (p a) eqn:Ha.
  - exists [], l. auto.
  - destruct (find p l) as [r|].
    + destruct IH as (pre & post & -> & Hr & Hpre).
      exists (a :: pre), post. auto.
    + constructor; assumption.
Qed.

(** C6: [find_by_id] loads the table and returns its first record whose
    id is the given string, or nothing when no record has that id. *)
Theorem find_by_id_first_match (pil : pillow) (st st' : file)
    (df : list item) (x : string)
    (Hload : load_data pil st = Ok (st', df)) :
  match find_by_id pil st x with
  | Ok (st'', Some r) =>
      st'' = st' /\
      exists pre post, df = (pre ++ r :: post)%list /\ id r = PStr x /\
        Forall (fun q => id q <> PStr x) pre
  | Ok (st'', None) => st'' = st' /\ Forall (fun q => id q <> PStr x) df
  | Err _ => False
  end.
Proof.
  unfold find_by_id. rewrite Hload. simpl.
  pose proof (find_first (fun r => cell_eq_str (id r) x) df) as H.
  destruct (find (fun r => cell_eq_str (id r) x) df) as [r|]; simpl in H.
  - destruct H as (pre & post & Hdf & Hr & Hpre). split; [reflexivity|].
    exists pre, post. split; [exact Hdf|]. split; [apply cell_eq_str_true; exact Hr|].
    eapply Forall_impl; [|exact Hpre]. intros q Hq. apply cell_eq_str_false. exact Hq.
  - split; [reflexivity|].
    eapply Forall_impl; [|exact H]. intros q Hq. apply cell_eq_str_false. exact Hq.
Qed.

Lemma find_by_id_first_match_witness :
  load_data pillow9 None = Ok (Some (to_csv sample_items), sample_items) /\
  match find_by_id pillow9 None "22222222-bbbb-cccc-dddd-222222222222" with
  | Ok (st'', Some r) =>
      st'' = Some (to_csv sample_items) /\
      exists pre post, sample_items = (pre ++ r :: post)%list /\
        id r = PStr "22222222-bbbb-cccc-dddd-222222222222" /\
        Forall (fun q => id q <> PStr "22222222-bbbb-cccc-dddd-222222222222") pre
  | Ok (st'', None) =>
      st'' = Some (to_csv sample_items) /\
      Forall (fun q => id q <> PStr "22222222-bbbb-cccc-dddd-222222222222")
        sample_items
  | Err _ => False
  end.
Proof.
  split; [vm_compute; reflexivity|].
  apply find_by_id_first_match. vm_compute. reflexivity.
Defined.

End StoreFacts.

Module TableFacts.
Import Store Pages.


Lemma kinds_app (a b : list line) :
  map_row col_numeric (columns (a ++ b)%list)
  = zip_row andb (map_row col_numeric (columns a))
                 (map_row col_numeric (columns b)).
Proof.
  unfold map_row, columns, zip_row, col_numeric. cbn [id type title
    description category image_path latitude longitude reported_at
    qr_code_path].
  rewrite !map_app, !forallb_app. reflexivity.
Qed.

Lemma sample_kinds : map_row col_numeric (columns S0) = store_kinds.
Proof. vm_compute. reflexivity. Qed.

Lemma rest_kinds (rest : list line) :
  Forall (fun l => line_ok l = true) rest ->
  col_numeric (map latitude rest) = true /\
  col_numeric (map longitude rest) = true.
Proof.
  induction 1 as [|l rest Hl _ [IH1 IH2]]; [split; reflexivity|].
  unfold line_ok in Hl. apply andb_true_iff in Hl as [H1 H2].
  unfold col_numeric in *. simpl. rewrite H1, H2, IH1, IH2. split; reflexivity.
Qed.

Lemma kinds_shape (rest : list line) :
  Forall (fun l => line_ok l = true) rest ->
  map_row col_numeric (columns (S0 ++ rest)%list) = store_kinds.
Proof.
  intros H. rewrite kinds_app, sample_kinds.
  destruct (rest_kinds rest H) as [H1 H2].
  unfold zip_row, store_kinds, map_row. cbn [id type title description
    category image_path latitude longitude reported_at qr_code_path andb].
  cbn [columns id type title description category image_path latitude
    longitude reported_at qr_code_path].
  rewrite H1, H2. reflexivity.
Qed.

Lemma read_csv_shape (rest : list line) :
  Forall (fun l => line_ok l = true) rest ->
  read_csv (S0 ++ rest)%list = map read_line (S0 ++ rest)%list.
Proof. intros H. unfold read_csv. rewrite kinds_shape by exact H. reflexivity. Qed.

Lemma read_cell_idem (b : bool) (f : string) :
  read_cell b (write_cell (read_cell b f)) = read_cell b f.
Proof.
  unfold read_cell. destruct (is_na f) eqn:Hf; [reflexivity|].
  destruct b; simpl; rewrite Hf; reflexivity.
Qed.

Lemma read_line_idem (l : line) :
  read_line (map_row write_cell (read_line l)) = read_line l.
Proof.
  destruct l. unfold read_line, zip_row, map_row. cbn [id type title
    description category image_path latitude longitude reported_at
    qr_code_path store_kinds].
  rewrite !read_cell_idem. reflexivity.
Qed.

Lemma sample_canon :
  map (fun l => map_row write_cell (read_line l)) S0 = S0.
Proof. vm_compute. reflexivity. Qed.

Lemma sample_read : map read_line S0 = sample_items.
Proof. vm_compute. reflexivity. Qed.

Lemma line_ok_canon (l : line) :
  line_ok l = true -> line_ok (map_row write_cell (read_line l)) = true.
Proof.
  destruct l as [i ty t d c ip la lo ra q]. unfold line_ok, read_line,
    zip_row, map_row, read_cell. cbn [id type title description category
    image_path latitude longitude reported_at qr_code_path store_kinds].
  intros H. apply andb_true_iff in H as [H1 H2].
  destruct (is_na la) eqn:Ha, (is_na lo) eqn:Ho; simpl;
    rewrite ?Ha, ?Ho; simpl in *; rewrite ?H1, ?H2; reflexivity.
Qed.

Lemma line_ok_new (f : form) (u n : string) :
  form_ok f = true -> line_ok (map_row write_cell (new_item f u n)) = true.
Proof.
  unfold form_ok, line_ok. intros H. apply andb_true_iff in H as [H1 H2].
  simpl. rewrite H1, H2, !orb_true_r. reflexivity.
Qed.

Lemma load_nonempty (pil : pillow) (l : line) (ls : list line) :
  load_data pil (Some (l :: ls)) = Ok (Some (l :: ls), read_csv (l :: ls)).
Proof. reflexivity. Qed.

Lemma S0_cons : exists l ls, S0 = l :: ls.
Proof. eexists. eexists. reflexivity. Qed.

Lemma load_shape_some (pil : pillow) (rest : list line) :
  Forall (fun l => line_ok l = true) rest ->
  load_data pil (Some (S0 ++ rest)%list)
  = Ok (Some (S0 ++ rest)%list, map read_line (S0 ++ rest)%list).
Proof.
  intros H. destruct S0_cons as (l & ls & HS).
  rewrite <- read_csv_shape by exact H. rewrite HS. apply load_nonempty.
Qed.

Lemma load_seed (pil : pillow) (st : file) :
  st = None \/ st = Some [] ->
  load_data pil st = if has_textsize pil then Ok (Some S0, sample_items)
                     else Err AttributeError.
Proof.
  destruct pil as [[|]]; intros [-> | ->]; vm_compute; reflexivity.
Qed.

Lemma load_shape (pil : pillow) (st st1 : file) (df : list item) :
  table_shape st -> load_data pil st = Ok (st1, df) ->
  exists rest, st1 = Some (S0 ++ rest)%list /\
    Forall (fun l => line_ok l = true) rest /\
    df = map read_line (S0 ++ rest)%list.
Proof.
  intros Hst Hl. destruct Hst as [Hst | [Hst | (rest & -> & Hrest)]].
  - rewrite load_seed in Hl by (left; exact Hst).
    destruct (has_textsize pil); [|discriminate].
    inversion Hl; subst. exists []. rewrite app_nil_r, sample_read. auto.
  - rewrite load_seed in Hl by (right; exact Hst).
    destruct (has_textsize pil); [|discriminate].
    inversion Hl; subst. exists []. rewrite app_nil_r, sample_read. auto.
  - rewrite load_shape_some in Hl by exact Hrest. inversion Hl; subst.
    exists rest. auto.
Qed.

Lemma report_submit_inv (pil : pillow) (st st' : file) (f : form)
    (u n : string) :
  report_submit pil st f u n = Ok st' ->
  exists st1 df, load_data pil st = Ok (st1, df) /\ open_image f = Ok tt /\
    st' = save_data (df ++ [new_item f u n])%list.
Proof.
  unfold report_submit. destruct (load_data pil st) as [[st1 df]|e];
    [|discriminate]. simpl.
  destruct (open_image f) as [[]|e]; [|discriminate]. simpl.
  intros H. inversion H. exists st1, df. auto.
Qed.

Lemma report_shape (pil : pillow) (st st' : file) (f : form) (u n : string)
    (st1 : file) (df : list item) :
  table_shape st -> form_ok f = true -> load_data pil st = Ok (st1, df) ->
  report_submit pil st f u n = Ok st' ->
  exists rest', st' = Some (S0 ++ rest')%list /\
    Forall (fun l => line_ok l = true) rest' /\
    map read_line (S0 ++ rest')%list = (df ++ [read_back (new_item f u n)])%list.
Proof.
  intros Hst Hf Hl Hs.
  destruct (report_submit_inv pil st st' f u n Hs) as (st2 & df2 & Hl2 & _ & ->).
  rewrite Hl in Hl2. inversion Hl2; subst st2 df2; clear Hl2 Hs.
  destruct (load_shape pil st st1 df Hst Hl) as (rest & _ & Hrest & ->).
  exists (map (fun l => map_row write_cell (read_line l)) rest
          ++ [map_row write_cell (new_item f u n)])%list.
  split; [|split].
  - unfold save_data, to_csv. rewrite !map_app, !map_map.
    rewrite sample_canon. rewrite <- app_assoc. reflexivity.
  - apply Forall_app. split.
    + apply Forall_map. eapply Forall_impl; [|exact Hrest].
      intros l Hl'. apply line_ok_canon. exact Hl'.
    + constructor; [apply line_ok_new; exact Hf | constructor].
  - rewrite !map_app, !map_map.
    rewrite (map_ext (fun x => read_line (map_row write_cell (read_line x)))
               read_line read_line_idem).
    rewrite <- app_assoc. reflexivity.
Qed.

Lemma reachable_shape (pil : pillow) (st : file) :
  reachable pil st -> table_shape st.
Proof.
  induction 1 as [| |st st' df _ IH Hl|st f u n st' _ IH Hf Hs].
  - left. reflexivity.
  - right. left. reflexivity.
  - destruct (load_shape pil st st' df IH Hl) as (rest & -> & Hrest & _).
    right. right. exists rest. auto.
  - unfold report_submit in Hs.
    destruct (load_data pil st) as [[st1 df]|] eqn:Hl; [|discriminate].
    destruct (report_shape pil st st' f u n st1 df IH Hf Hl)
      as (rest & -> & Hrest & _).
    + unfold report_submit. rewrite Hl. exact Hs.
    + right. right. exists rest. auto.
Qed.

(** Loading after a submission gives the records loaded before it,
    then the new record as read back. *)
Lemma append_load (pil : pillow) (st st1 st' : file) (prior : list item)
    (f : form) (u n : string) :
  reachable pil st -> form_ok f = true ->
  load_data pil st = Ok (st1, prior) ->
  report_submit pil st f u n = Ok st' ->
  load_data pil st' = Ok (st', (prior ++ [read_back (new_item f u n)])%list).
Proof.
  intros Hr Hf Hl Hs.
  destruct (report_shape pil st st' f u n st1 prior (reachable_shape pil st Hr)
              Hf Hl Hs) as (rest & -> & Hrest & Heq).
  rewrite load_shape_some by exact Hrest. rewrite Heq. reflexivity.
Qed.

End TableFacts.

Module AppendFacts.
Import Store Pages Inputs Views TableFacts.

Lemma find_app {A} (p : A -> bool) (l1 l2 : list A) :
  find p (l1 ++ l2)%list
  = match find p l1 with Some x => Some x | None => find p l2 end.
Proof. induction l1 as [|a l1 IH]; simpl; [reflexivity|]. destruct (p a); auto. Qed.

Lemma find_none {A} (p : A -> bool) (l : list A) :
  Forall (fun q => p q = false) l -> find p l = None.
Proof. induction 1; simpl; [reflexivity|]. rewrite H. assumption. Qed.

Lemma read_back_new_exact (f : form) (u n : string) :
  no_na_field (new_item f u n) = true ->
  read_back (new_item f u n) = new_item f u n.
Proof.
  unfold no_na_field, row_fields, new_item. cbn [forallb id type title
    description category image_path latitude longitude reported_at
    qr_code_path].
  intros H. repeat (apply andb_true_iff in H as [?H H]).
  rewrite negb_true_iff in *.
  unfold read_back, zip_row, map_row, read_cell. cbn [id type title
    description category image_path latitude longitude reported_at
    qr_code_path store_kinds write_cell].
  repeat match goal with Hx : is_na _ = false |- _ => rewrite Hx; clear Hx end.
  reflexivity.
Qed.

(** C3 (code bug): the umbrella report (empty description, no photo)
    is found again with its description and image path missing, not as
    the record that was appended; the scanner then fails on it, since
    [os.path.exists] of the missing image path raises [TypeError]. *)
Theorem append_then_find_differs :
  report_submit pillow9 None umbrella_form uuid1 ts0 = Ok umbrella_table /\
  (exists r, find_by_id pillow9 umbrella_table uuid1 = Ok (umbrella_table, Some r) /\
             r <> new_item umbrella_form uuid1 ts0 /\
             description r = PNaN /\ image_path r = PNaN) /\
  qr_code_scanner pillow9 umbrella_table [Payload.encode_payload uuid1]
    = Err TypeError.
Proof.
  split; [vm_compute; reflexivity|]. split; [|vm_compute; reflexivity].
  exists (read_back (new_item umbrella_form uuid1 ts0)).
  split; [vm_compute; reflexivity|]. split; [|split; reflexivity].
  intros H. vm_compute in H. discriminate H.
Qed.

(** On a table the app produced, a report submission with float
    coordinates leaves the loaded records as they were and in order,
    and adds one record at the end: the submitted one as the CSV file
    gives it back (empty or NA-token fields become missing values; it
    is the submitted record when it has none).  Loading the resulting
    table does not write it. *)
Theorem append_extends_loaded_table (pil : pillow) (st st1 st' : file)
    (prior : list item) (f : form) (u n : string)
    (Hr : reachable pil st) (Hf : form_ok f = true)
    (Hl : load_data pil st = Ok (st1, prior))
    (Hs : report_submit pil st f u n = Ok st') :
  load_data pil st' = Ok (st', (prior ++ [read_back (new_item f u n)])%list) /\
  (no_na_field (new_item f u n) = true ->
   load_data pil st' = Ok (st', (prior ++ [new_item f u n])%list)).
Proof.
  pose proof (append_load pil st st1 st' prior f u n Hr Hf Hl Hs) as H.
  split; [exact H|]. intros Hna. rewrite H, read_back_new_exact by exact Hna.
  reflexivity.
Qed.

Lemma append_extends_loaded_table_witness :
  reachable pillow9 None /\ form_ok phone_form = true /\
  load_data pillow9 None = Ok (Some (to_csv sample_items), sample_items) /\
  report_submit pillow9 None phone_form uuid1 ts0
    = Ok (save_data (sample_items ++ [new_item phone_form uuid1 ts0])%list) /\
  load_data pillow9 (save_data (sample_items ++ [new_item phone_form uuid1 ts0])%list)
    = Ok (save_data (sample_items ++ [new_item phone_form uuid1 ts0])%list,
          (sample_items ++ [new_item phone_form uuid1 ts0])%list).
Proof.
  assert (Hl : load_data pillow9 None
               = Ok (Some (to_csv sample_items), sample_items))
    by (vm_compute; reflexivity).
  assert (Hs : report_submit pillow9 None phone_form uuid1 ts0
    = Ok (save_data (sample_items ++ [new_item phone_form uuid1 ts0])%list))
    by (vm_compute; reflexivity).
  split; [apply reach_none|]. split; [reflexivity|].
  split; [exact Hl|]. split; [exact Hs|].
  apply (proj2 (append_extends_loaded_table pillow9 None
                  (Some (to_csv sample_items)) _ sample_items phone_form
                  uuid1 ts0 (reach_none _) eq_refl Hl Hs)).
  reflexivity.
Defined.

(** C7 (code bug): after the umbrella report the loaded table is the
    sample records followed by the umbrella record with its empty
    description and image path turned into missing values, not by the
    record submitted; opening that record in the browse page then
    raises [TypeError] at [os.path.exists] of its image path. *)
Theorem append_extends_differs :
  load_data pillow9 None = Ok (Some (to_csv sample_items), sample_items) /\
  report_submit pillow9 None umbrella_form uuid1 ts0 = Ok umbrella_table /\
  load_data pillow9 umbrella_table
    = Ok (umbrella_table,
          (sample_items ++ [read_back (new_item umbrella_form uuid1 ts0)])%list) /\
  read_back (new_item umbrella_form uuid1 ts0) <> new_item umbrella_form uuid1 ts0 /\
  browse_items pillow9 umbrella_table "All" ""
    = Ok (sample_items ++ [read_back (new_item umbrella_form uuid1 ts0)])%list /\
  detail_view (sample_items ++ [read_back (new_item umbrella_form uuid1 ts0)])%list
    (PStr "Red Umbrella") = Err TypeError.
Proof.
  split; [vm_compute; reflexivity|]. split; [vm_compute; reflexivity|].
  split; [vm_compute; reflexivity|].
  split; [intros H; vm_compute in H; discriminate H|].
  split; vm_compute; reflexivity.
Qed.



End AppendFacts.

Module BrowseFacts.
Import Store Pages Inputs.

Lemma row_matches_err (term : string) (r : item) (e : exn) :
  row_matches term r = Err e -> e = AttributeError.
Proof.
  unfold row_matches, cell_lower. destruct (title r); simpl;
    try (intros H; inversion H; reflexivity).
  destruct (Py.contains (Py.lower term) (Py.lower s)); [discriminate|].
  destruct (description r); simpl; intros H; inversion H; reflexivity.
Qed.

Lemma filter_rows_err (p : item -> result bool) (l : list item) (r : item) :
  (forall q e, p q = Err e -> e = AttributeError) ->
  In r l -> p r = Err AttributeError -> filter_rows p l = Err AttributeError.
Proof.
  intros Honly. induction l as [|a l IH]; simpl; [contradiction|].
  intros [-> | Hin] Hp.
  - rewrite Hp. reflexivity.
  - destruct (p a) as [b|e] eqn:Ha; simpl.
    + rewrite (IH Hin Hp). reflexivity.
    + rewrite (Honly a e Ha). reflexivity.
Qed.

Lemma filter_rows_ok (p : item -> result bool) (l : list item) :
  (forall r, In r l -> exists b, p r = Ok b) ->
  exists out, filter_rows p l = Ok out.
Proof.
  induction l as [|a l IH]; simpl; intros H; [eexists; reflexivity|].
  destruct (H a (or_introl eq_refl)) as [b ->]. simpl.
  destruct IH as [out ->]; [intros r Hr; apply H; right; exact Hr|].
  eexists. reflexivity.
Qed.

Lemma in_type_filter (df : list item) (ft : string) (r : item) :
  In r df -> (ft = "All" \/ type r = PStr ft) ->
  In r (if String.eqb ft "All" then df
        else filter (fun q => cell_eq_str (type q) ft) df).
Proof.
  intros Hin Hft. destruct (String.eqb ft "All") eqn:E; [exact Hin|].
  apply filter_In. split; [exact Hin|].
  destruct Hft as [-> | Ht]; [discriminate E|].
  apply StoreFacts.cell_eq_str_true. exact Ht.
Qed.

Lemma in_type_filter_inv (df : list item) (ft : string) (r : item) :
  In r (if String.eqb ft "All" then df
        else filter (fun q => cell_eq_str (type q) ft) df) -> In r df.
Proof.
  destruct (String.eqb ft "All"); [auto|]. intros H.
  apply filter_In in H. apply H.
Qed.

(** C9: with a non-empty search term the search returns a result when
    every loaded title and description is a string, and raises
    [AttributeError] as soon as a record that passes the type filter has
    a missing description and a title not containing the term. *)
Theorem search_needs_string_fields (pil : pillow) (st st1 : file)
    (df : list item) (ft term : string)
    (Hl : load_data pil st = Ok (st1, df)) (Hterm : term <> EmptyString) :
  ((forall r, In r df -> exists t d, title r = PStr t /\ description r = PStr d) ->
   exists out, browse_items pil st ft term = Ok out) /\
  (forall r s, In r df -> description r = PNaN -> title r = PStr s ->
   (ft = "All" \/ type r = PStr ft) ->
   Py.contains (Py.lower term) (Py.lower s) = false ->
   browse_items pil st ft term = Err AttributeError).
Proof.
  assert (Ht : String.eqb term "" = false)
    by (apply String.eqb_neq; exact Hterm).
  unfold browse_items. rewrite Hl. simpl. split.
  - intros Hstr. destruct df as [|r0 df']; [eexists; reflexivity|].
    unfold filter_items. rewrite Ht. apply filter_rows_ok.
    intros r Hin. apply in_type_filter_inv in Hin.
    destruct (Hstr r Hin) as (t & d & Htl & Hd).
    unfold row_matches. rewrite Htl, Hd. simpl.
    destruct (Py.contains (Py.lower term) (Py.lower t)); eexists; reflexivity.
  - intros r s Hin Hd Htl Hft Hno. destruct df as [|r0 df']; [contradiction|].
    unfold filter_items. rewrite Ht.
    apply (filter_rows_err _ _ r (row_matches_err term)
             (in_type_filter _ ft r Hin Hft)).
    unfold row_matches. rewrite Htl. simpl. rewrite Hno, Hd. reflexivity.
Qed.

Lemma search_needs_string_fields_witness :
  load_data pillow9 umbrella_table
    = Ok (umbrella_table,
          (sample_items ++ [read_back (new_item umbrella_form uuid1 ts0)])%list) /\
  "jacket" <> EmptyString /\
  browse_items pillow9 umbrella_table "lost" "jacket" = Err AttributeError.
Proof.
  assert (Hl : load_data pillow9 umbrella_table
    = Ok (umbrella_table,
          (sample_items ++ [read_back (new_item umbrella_form uuid1 ts0)])%list))
    by (vm_compute; reflexivity).
  split; [exact Hl|]. split; [discriminate|].
  apply (proj2 (search_needs_string_fields pillow9 umbrella_table umbrella_table
                  _ "lost" "jacket" Hl ltac:(discriminate)))
    with (r := read_back (new_item umbrella_form uuid1 ts0)) (s := "Red Umbrella").
  - apply in_or_app. right. left. reflexivity.
  - reflexivity.
  - reflexivity.
  - right. reflexivity.
  - reflexivity.
Defined.

(** C5 (code bug): on the table holding the umbrella report (its empty
    description read back as a missing value) the search for "jacket"
    among lost items raises [AttributeError] instead of returning the
    "Black Jacket" record; on the seeded table alone it returns that
    record. *)
Theorem search_raises_on_missing_description :
  browse_items pillow9 umbrella_table "lost" "jacket" = Err AttributeError /\
  browse_items pillow9 umbrella_table "lost" "JACKET" = Err AttributeError /\
  browse_items pillow9 None "lost" "JACKET"
    = Ok [sample_row "33333333-cccc-dddd-eeee-333333333333" "lost" "Black Jacket"
            "Black jacket lost in auditorium" "Clothing" "12.9705" "77.593"
            "2025-08-08 18:20:00"].
Proof. split; [|split]; vm_compute; reflexivity. Qed.

End BrowseFacts.

Module TableExtra.
Import Store Pages Inputs Views TableFacts AppendFacts.

(** On a table the app produced, every successful load returns the
    three sample records first (so the pages' "No items" branches are
    never taken). *)
Theorem loaded_table_starts_with_samples (pil : pillow) (st st1 : file)
    (df : list item) (Hr : reachable pil st)
    (Hl : load_data pil st = Ok (st1, df)) :
  exists rest, df = (sample_items ++ rest)%list.
Proof.
  destruct (load_shape pil st st1 df (reachable_shape pil st Hr) Hl)
    as (rest & _ & _ & ->).
  exists (map read_line rest). rewrite map_app, sample_read. reflexivity.
Qed.

Lemma loaded_table_starts_with_samples_witness :
  reachable pillow9 umbrella_table /\
  load_data pillow9 umbrella_table
    = Ok (umbrella_table,
          (sample_items ++ [read_back (new_item umbrella_form uuid1 ts0)])%list) /\
  exists rest, (sample_items ++ [read_back (new_item umbrella_form uuid1 ts0)])%list
               = (sample_items ++ rest)%list.
Proof.
  assert (Hr : reachable pillow9 umbrella_table).
  { apply (reach_report _ None umbrella_form uuid1 ts0); [apply reach_none | reflexivity |].
    vm_compute. reflexivity. }
  assert (Hl : load_data pillow9 umbrella_table
    = Ok (umbrella_table,
          (sample_items ++ [read_back (new_item umbrella_form uuid1 ts0)])%list))
    by (vm_compute; reflexivity).
  split; [exact Hr|]. split; [exact Hl|].
  exact (loaded_table_starts_with_samples _ _ _ _ Hr Hl).
Defined.

(** On a table the app produced, loading again after a successful load
    writes nothing and returns the same records. *)
Theorem load_again_same (pil : pillow) (st st1 : file) (df : list item)
    (Hr : reachable pil st) (Hl : load_data pil st = Ok (st1, df)) :
  load_data pil st1 = Ok (st1, df).
Proof.
  destruct (load_shape pil st st1 df (reachable_shape pil st Hr) Hl)
    as (rest & -> & Hrest & ->).
  apply load_shape_some. exact Hrest.
Qed.

Lemma load_again_same_witness :
  reachable pillow9 None /\
  load_data pillow9 None = Ok (Some (to_csv sample_items), sample_items) /\
  load_data pillow9 (Some (to_csv sample_items))
    = Ok (Some (to_csv sample_items), sample_items).
Proof.
  assert (Hl : load_data pillow9 None
               = Ok (Some (to_csv sample_items), sample_items))
    by (vm_compute; reflexivity).
  split; [apply reach_none|]. split; [exact Hl|].
  exact (load_again_same _ _ _ _ (reach_none _) Hl).
Defined.

Lemma is_na_i (s : string) : is_na (String "i"%char s) = false.
Proof. reflexivity. Qed.

Lemma sample_row_paths (i ty t d c la lo ts : string) :
  is_na i = false -> paths_ok (sample_row i ty t d c la lo ts).
Proof.
  intros Hi. exists i. unfold sample_row, read_cell. simpl.
  rewrite Hi. split; [reflexivity|]. split; [reflexivity|].
  right. reflexivity.
Qed.

Lemma sample_paths : Forall paths_ok sample_items.
Proof.
  unfold sample_items.
  repeat constructor; apply sample_row_paths; reflexivity.
Qed.

Lemma new_item_paths (f : form) (u n : string) :
  paths_ok (read_back (new_item f u n)).
Proof.
  exists u. split; [reflexivity|]. split.
  - unfold read_back, new_item, zip_row, map_row. simpl.
    unfold read_cell, Py.path_join, QR_DIR. simpl. reflexivity.
  - unfold read_back, new_item, zip_row, map_row. simpl.
    destruct (form_has_image f); [right | left]; reflexivity.
Qed.

(** Every record of a table the app produced carries the QR path and
    image path derived from its own id: [images/qr_codes/<id>.png], and
    either no image or [images/<id>.png]. *)
Theorem loaded_paths_keyed_by_id (pil : pillow) (st : file)
    (Hr : reachable pil st) :
  forall st1 df, load_data pil st = Ok (st1, df) -> Forall paths_ok df.
Proof.
  induction Hr as [| |s0 s1 df0 Hr IH Hl0|s0 f u n s1 Hr IH Hf Hs];
    intros st1 df Hl.
  - rewrite load_seed in Hl by (left; reflexivity).
    destruct (has_textsize pil); [|discriminate].
    inversion Hl; subst. exact sample_paths.
  - rewrite load_seed in Hl by (right; reflexivity).
    destruct (has_textsize pil); [|discriminate].
    inversion Hl; subst. exact sample_paths.
  - rewrite (load_again_same pil s0 s1 df0 Hr Hl0) in Hl.
    inversion Hl; subst. eapply IH. exact Hl0.
  - destruct (load_data pil s0) as [[st0 prior]|] eqn:Hl0;
      [|unfold report_submit in Hs; rewrite Hl0 in Hs; discriminate].
    rewrite (append_load pil s0 st0 s1 prior f u n Hr Hf Hl0 Hs) in Hl.
    inversion Hl; subst. apply Forall_app. split.
    + exact (IH st0 prior eq_refl).
    + constructor; [apply new_item_paths | constructor].
Qed.

Lemma loaded_paths_keyed_by_id_witness :
  reachable pillow9 umbrella_table /\
  Forall paths_ok (sample_items ++ [read_back (new_item umbrella_form uuid1 ts0)])%list.
Proof.
  assert (Hr : reachable pillow9 umbrella_table).
  { apply (reach_report _ None umbrella_form uuid1 ts0); [apply reach_none | reflexivity |].
    vm_compute. reflexivity. }
  split; [exact Hr|].
  apply (loaded_paths_keyed_by_id pillow9 umbrella_table Hr umbrella_table).
  vm_compute. reflexivity.
Defined.

Lemma numeric_not_na (s : string) : numeric_text s = true -> is_na s = false.
Proof.
  intros H. destruct (is_na s) eqn:E; [|reflexivity].
  unfold is_na in E. apply existsb_exists in E as (x & Hin & Hx).
  apply String.eqb_eq in Hx. subst x.
  simpl in Hin. repeat (destruct Hin as [<- | Hin]; [discriminate H|]).
  contradiction.
Qed.

(** On a table the app produced, after a report submission the map
    shows the points it showed before, then the new item's point,
    unless its title is empty (or another NA token): [dropna] then drops
    it although its coordinates are set. *)
Theorem map_after_report (pil : pillow) (st st1 st' : file)
    (prior : list item) (f : form) (u n : string)
    (Hr : reachable pil st) (Hf : form_ok f = true)
    (Hl : load_data pil st = Ok (st1, prior))
    (Hs : report_submit pil st f u n = Ok st') :
  map_view pil st' =
  Ok (map_points prior ++
      (if is_na (form_title f) then []
       else [(PNum (form_latitude f), PNum (form_longitude f),
              PStr (form_title f))]))%list.
Proof.
  unfold map_view. rewrite (append_load pil st st1 st' prior f u n Hr Hf Hl Hs).
  simpl.
  assert (Hm : forall x : item,
    match (prior ++ [x])%list with [] => @Ok (list (cell * cell * cell)) []
    | _ => Ok (map_points (prior ++ [x])%list) end
    = Ok (map_points (prior ++ [x])%list)) by (destruct prior; reflexivity).
  rewrite Hm. f_equal. unfold map_points. rewrite filter_app, map_app. f_equal.
  unfold form_ok in Hf. apply andb_true_iff in Hf as [Hla Hlo].
  apply numeric_not_na in Hla. apply numeric_not_na in Hlo.
  unfold read_back, new_item, zip_row, map_row, read_cell. simpl.
  rewrite Hla, Hlo. destruct (is_na (form_title f)); reflexivity.
Qed.

Lemma map_after_report_witness :
  load_data pillow9 None = Ok (Some (to_csv sample_items), sample_items) /\
  report_submit pillow9 None untitled_form uuid1 ts0
    = Ok (save_data (sample_items ++ [new_item untitled_form uuid1 ts0])%list) /\
  map_view pillow9 (save_data (sample_items ++ [new_item untitled_form uuid1 ts0])%list)
    = Ok (map_points sample_items).
Proof.
  assert (Hl : load_data pillow9 None
               = Ok (Some (to_csv sample_items), sample_items))
    by (vm_compute; reflexivity).
  assert (Hs : report_submit pillow9 None untitled_form uuid1 ts0
    = Ok (save_data (sample_items ++ [new_item untitled_form uuid1 ts0])%list))
    by (vm_compute; reflexivity).
  split; [exact Hl|]. split; [exact Hs|].
  rewrite (map_after_report pillow9 None _ _ sample_items untitled_form uuid1 ts0
             (reach_none _) eq_refl Hl Hs).
  vm_compute. reflexivity.
Defined.

End TableExtra.

Module PageExtra.
Import Store Pages Inputs Views TableFacts AppendFacts.

Lemma filter_rows_in (p : item -> result bool) (l out : list item) :
  filter_rows p l = Ok out ->
  forall r, In r out <-> In r l /\ p r = Ok true.
Proof.
  revert out. induction l as [|a l IH]; simpl; intros out H r.
  - inversion H; subst. simpl. tauto.
  - destruct (p a) as [b|e] eqn:Ha; [|discriminate]. simpl in H.
    destruct (filter_rows p l) as [out'|e] eqn:Hl; [|discriminate].
    simpl in H. inversion H; subst out. specialize (IH out' eq_refl).
    destruct b; simpl.
    + split.
      * intros [<- | Hin]; [split; [left; reflexivity | exact Ha]|].
        apply IH in Hin as [Hin Hp]. split; [right; exact Hin | exact Hp].
      * intros [[<- | Hin] Hp]; [left; reflexivity|].
        right. apply IH. split; assumption.
    + split.
      * intros Hin. apply IH in Hin as [Hin Hp]. split; [right; exact Hin | exact Hp].
      * intros [[<- | Hin] Hp]; [congruence|]. apply IH. split; assumption.
Qed.

Lemma row_matches_true (term : string) (r : item) :
  row_matches term r = Ok true <->
  exists t, title r = PStr t /\
    (Py.contains (Py.lower term) (Py.lower t) = true \/
     exists d, description r = PStr d /\
               Py.contains (Py.lower term) (Py.lower d) = true).
Proof.
  unfold row_matches. destruct (title r) as [t|t|]; simpl.
  - destruct (Py.contains (Py.lower term) (Py.lower t)) eqn:Ht.
    + split; [intros _; exists t; auto | reflexivity].
    + destruct (description r) as [d|d|]; simpl.
      * split.
        -- intros H. inversion H. exists t. split; [reflexivity|]. right.
           exists d. auto.
        -- intros (t' & Ht' & [Hc | (d' & Hd & Hc)]);
             inversion Ht'; subst t'; [congruence|].
           inversion Hd; subst d'. rewrite Hc. reflexivity.
      * split; [discriminate|].
        intros (t' & Ht' & [Hc | (d' & Hd & _)]);
          inversion Ht'; subst t'; [congruence | discriminate].
      * split; [discriminate|].
        intros (t' & Ht' & [Hc | (d' & Hd & _)]);
          inversion Ht'; subst t'; [congruence | discriminate].
  - split; [discriminate|]. intros (t' & H & _). discriminate.
  - split; [discriminate|]. intros (t' & H & _). discriminate.
Qed.

(** When the browse filters return, they return exactly the records of
    the table of the chosen type ("All" keeps every type) whose title,
    or else description, contains the lower-cased term in its
    lower-cased text; an empty term keeps every record of that type. *)
Theorem filter_items_exact (df : list item) (ft term : string)
    (out : list item) (H : filter_items df ft term = Ok out) :
  forall r, In r out <->
    In r df /\ (ft = "All" \/ type r = PStr ft) /\
    (term = EmptyString \/
     exists t, title r = PStr t /\
       (Py.contains (Py.lower term) (Py.lower t) = true \/
        exists d, description r = PStr d /\
                  Py.contains (Py.lower term) (Py.lower d) = true)).
Proof.
  intros r. unfold filter_items in H.
  assert (Hty : In r (if String.eqb ft "All" then df
                      else filter (fun q => cell_eq_str (type q) ft) df)
                <-> In r df /\ (ft = "All" \/ type r = PStr ft)).
  { destruct (String.eqb ft "All") eqn:E.
    - apply String.eqb_eq in E. subst. tauto.
    - rewrite filter_In, StoreFacts.cell_eq_str_true.
      split; [tauto|]. intros [Hin [-> | Ht]]; [discriminate E | tauto]. }
  destruct (String.eqb term "") eqn:Et.
  - apply String.eqb_eq in Et. subst term. inversion H; subst out.
    rewrite Hty. tauto.
  - apply String.eqb_neq in Et.
    rewrite (filter_rows_in _ _ _ H r), Hty, row_matches_true. tauto.
Qed.

Definition jacket : item :=
  sample_row "33333333-cccc-dddd-eeee-333333333333" "lost" "Black Jacket"
    "Black jacket lost in auditorium" "Clothing" "12.9705" "77.593"
    "2025-08-08 18:20:00".

Lemma filter_items_exact_witness :
  filter_items sample_items "lost" "JACKET" = Ok [jacket] /\
  In jacket sample_items.
Proof.
  assert (H : filter_items sample_items "lost" "JACKET" = Ok [jacket])
    by (vm_compute; reflexivity).
  split; [exact H|].
  exact (proj1 (proj1 (filter_items_exact _ _ _ _ H jacket) (or_introl eq_refl))).
Defined.

Lemma cell_eq_PStr (a : string) (c : cell) : cell_eq (PStr a) c = true -> c = PStr a.
Proof.
  destruct c; simpl; try discriminate. intros H. apply String.eqb_eq in H.
  subst. reflexivity.
Qed.

(** In the browse page's detail view, a record listed after a different
    record with the same title is never shown, whatever option is
    chosen: [iloc[0]] always picks the earlier one. *)
Theorem later_duplicate_title_never_shown (df pre post : list item)
    (r1 r2 : item) (sel : cell)
    (Hdf : df = (pre ++ r2 :: post)%list) (Hin : In r1 pre)
    (Ht : title r1 = title r2) (Hnot : ~ In r2 pre) :
  select_item df sel <> Shown r2.
Proof.
  unfold select_item. destruct (cell_eq sel (PStr SELECT)); [discriminate|].
  destruct (find (fun r => cell_eq (title r) sel) df) as [x|] eqn:E;
    [|discriminate].
  intros Hs. inversion Hs; subst x.
  pose proof (find_some _ _ E) as [_ Hp2].
  rewrite Hdf, find_app in E.
  destruct (find (fun r => cell_eq (title r) sel) pre) as [y|] eqn:E2.
  - inversion E; subst y. apply find_some in E2 as [Hy _]. contradiction.
  - pose proof (List.find_none _ _ E2 r1 Hin) as Hp1. simpl in Hp1, Hp2.
    rewrite Ht in Hp1. congruence.
Qed.

Definition jacket2 : item :=
  sample_row "44444444-dddd-eeee-ffff-444444444444" "found" "Black Jacket"
    "Found a black jacket by the gym" "Clothing" "12.97" "77.59"
    "2025-08-11 09:00:00".

Lemma later_duplicate_title_never_shown_witness :
  In jacket sample_items /\ title jacket = title jacket2 /\
  ~ In jacket2 sample_items /\
  select_item (sample_items ++ [jacket2])%list (PStr "Black Jacket") <> Shown jacket2.
Proof.
  assert (Hin : In jacket sample_items) by (right; right; left; reflexivity).
  assert (Hnot : ~ In jacket2 sample_items)
    by (intros [H|[H|[H|[]]]]; vm_compute in H; discriminate H).
  split; [exact Hin|]. split; [reflexivity|]. split; [exact Hnot|].
  exact (later_duplicate_title_never_shown _ sample_items [] jacket jacket2 _
           eq_refl Hin eq_refl Hnot).
Defined.

(** A record titled "-- Select --" is never shown in the browse page's
    detail view: its option is the "nothing selected" sentinel. *)
Theorem sentinel_title_never_shown (df : list item) (r : item) (sel : cell)
    (Ht : title r = PStr SELECT) :
  select_item df sel <> Shown r.
Proof.
  unfold select_item. destruct (cell_eq sel (PStr SELECT)) eqn:Es; [discriminate|].
  destruct (find (fun q => cell_eq (title q) sel) df) as [x|] eqn:E; [|discriminate].
  intros Hs. inversion Hs; subst x. apply find_some in E as [_ Hp].
  simpl in Hp. rewrite Ht in Hp. apply cell_eq_PStr in Hp. subst sel.
  unfold cell_eq in Es. rewrite String.eqb_refl in Es. discriminate.
Qed.

Definition sentinel_item : item :=
  sample_row "55555555-eeee-ffff-aaaa-555555555555" "lost" "-- Select --"
    "odd title" "Other" "0.0" "0.0" "2025-08-12 12:00:00".

Lemma sentinel_title_never_shown_witness :
  title sentinel_item = PStr SELECT /\
  select_item (sample_items ++ [sentinel_item])%list (PStr "-- Select --")
    <> Shown sentinel_item.
Proof.
  split; [reflexivity|]. apply sentinel_title_never_shown. reflexivity.
Defined.

(** Choosing, in the browse page, the option of a record whose title is
    missing (an item reported with an empty title) raises [IndexError]:
    [df["title"] == nan] matches no row. *)
Theorem missing_title_selection_fails (df : list item) (r : item)
    (Hin : In r df) (Ht : title r = PNaN) :
  select_item df (title r) = SelectIndexError.
Proof.
  rewrite Ht. unfold select_item. simpl.
  rewrite find_none; [reflexivity|].
  apply Forall_forall. intros q _. destruct (title q); reflexivity.
Qed.

Lemma missing_title_selection_fails_witness :
  In (read_back (new_item untitled_form uuid1 ts0))
     (sample_items ++ [read_back (new_item untitled_form uuid1 ts0)])%list /\
  title (read_back (new_item untitled_form uuid1 ts0)) = PNaN /\
  select_item (sample_items ++ [read_back (new_item untitled_form uuid1 ts0)])%list
    PNaN = SelectIndexError.
Proof.
  assert (Hin : In (read_back (new_item untitled_form uuid1 ts0))
     (sample_items ++ [read_back (new_item untitled_form uuid1 ts0)])%list)
    by (apply in_or_app; right; left; reflexivity).
  assert (Ht : title (read_back (new_item untitled_form uuid1 ts0)) = PNaN)
    by reflexivity.
  split; [exact Hin|]. split; [exact Ht|].
  rewrite <- Ht. exact (missing_title_selection_fails _ _ Hin Ht).
Defined.

End PageExtra.

Module ScanExtra.
Import Payload Store Pages Inputs Views PayloadFacts TableFacts AppendFacts.

Lemma lstrip_head (s : string) :
  match Py.lstrip s with
  | String c _ => Py.isspace c = false
  | EmptyString => True
  end.
Proof.
  induction s as [|c r IH]; simpl; [exact I|].
  destruct (Py.isspace c) eqn:Hc; [exact IH | exact Hc].
Qed.

Lemma rstrip_head (c : ascii) (r : string) :
  Py.isspace c = false -> Py.rstrip (String c r) = String c (Py.rstrip r).
Proof.
  intros Hc. simpl. rewrite Hc, andb_false_r. reflexivity.
Qed.

Lemma rstrip_last (s : string) :
  match last_char (Py.rstrip s) with
  | Some b => Py.isspace b = false
  | None => True
  end.
Proof.
  induction s as [|c r IH]; simpl; [exact I|].
  destruct (String.eqb (Py.rstrip r) "") eqn:E;
    destruct (Py.isspace c) eqn:Ec; simpl.
  - exact I.
  - apply String.eqb_eq in E. rewrite E. exact Ec.
  - apply String.eqb_neq in E.
    destruct (Py.rstrip r) as [|c' r']; [congruence | exact IH].
  - apply String.eqb_neq in E.
    destruct (Py.rstrip r) as [|c' r']; [congruence | exact IH].
Qed.

(** Every id the scanner reads off a payload has no white space at
    either end: [strip()] removes it from both sides. *)
Theorem decoded_id_no_edge_space (data u : string)
    (H : decode_payload data = Recognized u) :
  no_edge_space u = true.
Proof.
  unfold decode_payload in H. destruct (Py.startswith data PREFIX); [|discriminate].
  inversion H; subst u. clear H. unfold Py.strip.
  pose proof (lstrip_head (Py.replace data PREFIX "")) as Hh.
  destruct (Py.lstrip (Py.replace data PREFIX "")) as [|c r]; [reflexivity|].
  pose proof (rstrip_last (String c r)) as Hlast.
  rewrite (rstrip_head c r Hh) in Hlast |- *. unfold no_edge_space.
  destruct (last_char (String c (Py.rstrip r))) as [b|]; [|reflexivity].
  rewrite Hh, Hlast. reflexivity.
Qed.

Lemma decoded_id_no_edge_space_witness :
  decode_payload "Item ID:   abc-123  " = Recognized "abc-123" /\
  no_edge_space "abc-123" = true.
Proof.
  assert (H : decode_payload "Item ID:   abc-123  " = Recognized "abc-123")
    by (vm_compute; reflexivity).
  split; [exact H | exact (decoded_id_no_edge_space _ _ H)].
Defined.

Lemma decode_clean (u : string) :
  no_edge_space u = true -> Py.contains PREFIX u = false ->
  decode_payload (encode_payload u) = Recognized u.
Proof.
  intros Hsp Hocc. unfold decode_payload, encode_payload, Py.startswith.
  rewrite prefix_refl_app. unfold Py.replace.
  rewrite replace_prefix by discriminate.
  rewrite replace_from_absent by exact Hocc.
  change ("" ++ u) with u. rewrite strip_keep by exact Hsp. reflexivity.
Qed.

Lemma scan_all_unrecognized (pil : pillow) (st : file) (ds : list string) :
  Forall (fun d => Py.startswith d PREFIX = false) ds ->
  scan_all pil st ds = Ok (st, map Unrecognized ds).
Proof.
  induction 1 as [|d ds Hd _ IH]; [reflexivity|].
  cbn [scan_all]. unfold decode_payload. rewrite Hd, IH. reflexivity.
Qed.

(** Scanning codes none of which carries the "Item ID: " prefix reports
    each payload as unrecognised and never reads the CSV file: the
    result holds even when the file is missing and the sample data
    cannot be created. *)
Theorem scan_unrecognized_only (pil : pillow) (st : file) (ds : list string)
    (H : Forall (fun d => Py.startswith d PREFIX = false) ds) :
  qr_code_scanner pil st ds
  = Ok (st, match ds with
            | [] => NoCodeDetected
            | _ :: _ => Scanned (map Unrecognized ds)
            end).
Proof.
  destruct ds as [|d ds]; [reflexivity|].
  unfold qr_code_scanner. rewrite (scan_all_unrecognized pil st _ H).
  reflexivity.
Qed.

Lemma scan_unrecognized_only_witness :
  qr_code_scanner pillow10 None ["https://example.org"; "ID: 42"]
  = Ok (None, Scanned [Unrecognized "https://example.org";
                       Unrecognized "ID: 42"]).
Proof.
  apply (scan_unrecognized_only pillow10 None ["https://example.org"; "ID: 42"]).
  repeat constructor.
Defined.

Lemma find_reported (pil : pillow) (st st1 st' : file) (prior : list item)
    (f : form) (u n : string) :
  reachable pil st -> form_ok f = true -> is_na u = false ->
  load_data pil st = Ok (st1, prior) ->
  Forall (fun q => id q <> PStr u) prior ->
  report_submit pil st f u n = Ok st' ->
  find_by_id pil st' u = Ok (st', Some (read_back (new_item f u n))).
Proof.
  intros Hr Hf Hu Hl Hfresh Hs. unfold find_by_id.
  rewrite (append_load pil st st1 st' prior f u n Hr Hf Hl Hs).
  simpl. rewrite find_app, find_none.
  - simpl. unfold read_cell. rewrite Hu. simpl. rewrite String.eqb_refl.
    reflexivity.
  - eapply Forall_impl; [|exact Hfresh]. intros q Hq.
    apply StoreFacts.cell_eq_str_false. exact Hq.
Qed.

(** End to end: on a table the app produced, after reporting an item
    with a photo under a fresh id (one with no white space at its ends
    and not containing "Item ID: ", as a UUID), scanning the QR code
    generated for it shows that item, as read back from the CSV file,
    and leaves the file as it is. *)
Theorem scan_reported_item (pil : pillow) (st st1 st' : file)
    (prior : list item) (f : form) (u n : string)
    (Hr : reachable pil st) (Hf : form_ok f = true)
    (Himg : form_has_image f = true) (Hu : is_na u = false)
    (Hsp : no_edge_space u = true) (Hocc : Py.contains PREFIX u = false)
    (Hl : load_data pil st = Ok (st1, prior))
    (Hfresh : Forall (fun q => id q <> PStr u) prior)
    (Hs : report_submit pil st f u n = Ok st') :
  qr_code_scanner pil st' [encode_payload u]
  = Ok (st', Scanned [ShowItem u (read_back (new_item f u n))]).
Proof.
  assert (Hp : path_exists (image_path (read_back (new_item f u n))) = Ok tt)
    by (unfold new_item; rewrite Himg; reflexivity).
  unfold qr_code_scanner. cbn [scan_all].
  rewrite (decode_clean u Hsp Hocc). cbn [bind].
  rewrite (find_reported pil st st1 st' prior f u n Hr Hf Hu Hl Hfresh Hs).
  cbn [bind]. rewrite Hp. reflexivity.
Qed.

Lemma scan_reported_item_witness :
  qr_code_scanner pillow9
    (save_data (sample_items ++ [new_item phone_form uuid1 ts0])%list)
    [encode_payload uuid1]
  = Ok (save_data (sample_items ++ [new_item phone_form uuid1 ts0])%list,
        Scanned [ShowItem uuid1 (read_back (new_item phone_form uuid1 ts0))]).
Proof.
  apply (scan_reported_item pillow9 None (Some (to_csv sample_items)) _
           sample_items phone_form uuid1 ts0 (reach_none _)).
  - vm_compute. reflexivity.
  - vm_compute. reflexivity.
  - vm_compute. reflexivity.
  - vm_compute. reflexivity.
  - vm_compute. reflexivity.
  - vm_compute. reflexivity.
  - repeat constructor; vm_compute; discriminate.
  - vm_compute. reflexivity.
Defined.

(** On a table the app produced, after reporting an item without a
    photo under a fresh id, scanning the QR code generated for it fails:
    the empty image path is read back as a missing value and
    [os.path.exists] raises [TypeError] on it. *)
Theorem scan_photoless_item_fails (pil : pillow) (st st1 st' : file)
    (prior : list item) (f : form) (u n : string)
    (Hr : reachable pil st) (Hf : form_ok f = true)
    (Himg : form_has_image f = false) (Hu : is_na u = false)
    (Hsp : no_edge_space u = true) (Hocc : Py.contains PREFIX u = false)
    (Hl : load_data pil st = Ok (st1, prior))
    (Hfresh : Forall (fun q => id q <> PStr u) prior)
    (Hs : report_submit pil st f u n = Ok st') :
  qr_code_scanner pil st' [encode_payload u] = Err TypeError.
Proof.
  assert (Hp : path_exists (image_path (read_back (new_item f u n)))
               = Err TypeError)
    by (unfold new_item; rewrite Himg; reflexivity).
  unfold qr_code_scanner. cbn [scan_all].
  rewrite (decode_clean u Hsp Hocc). cbn [bind].
  rewrite (find_reported pil st st1 st' prior f u n Hr Hf Hu Hl Hfresh Hs).
  cbn [bind]. rewrite Hp. reflexivity.
Qed.

Lemma scan_photoless_item_fails_witness :
  qr_code_scanner pillow9 umbrella_table [encode_payload uuid1] = Err TypeError.
Proof.
  apply (scan_photoless_item_fails pillow9 None (Some (to_csv sample_items)) _
           sample_items umbrella_form uuid1 ts0 (reach_none _)).
  - vm_compute. reflexivity.
  - vm_compute. reflexivity.
  - vm_compute. reflexivity.
  - vm_compute. reflexivity.
  - vm_compute. reflexivity.
  - vm_compute. reflexivity.
  - repeat constructor; vm_compute; discriminate.
  - vm_compute. reflexivity.
Defined.

End ScanExtra.
